(** * Kudo: a shallow embedding of the instance model, the scheduler's
    InstanceStop handler and the node agent's startup/heartbeat client.

    Sources embedded:
    - controller/lib/src/external_api/instance/model.rs
    - controller/lib/src/external_api/instance/controller.rs
    - scheduler/src/event/handlers/instance_stop.rs
    - node-agent/src/main.rs

    Rust integers ([u64], [i32], [u16]) are modelled as [Z]; where the code
    does arithmetic on them the wrap-around is written out. Strings are
    Stdlib [string]s; [Vec]s are lists; [Option]s are options. *)

From Stdlib Require Import ZArith String List Bool Lia Ascii.
Import ListNotations.
Open Scope Z_scope.
Open Scope string_scope.

(* ------------------------------------------------------------------------- *)
(** ** Generated protobuf types *)

(** [proto::controller::Type]: the only variant the model uses is [Container]. *)
Inductive Type_ : Set :=
| Container.

Definition Type__as_i32 (t : Type_) : Z :=
  match t with Container => 0 end.

(** Modelled from the spec: [proto::controller::InstanceState] and its
    prost-generated [from_i32] are generated from a .proto file that is not
    part of the embedded sources. The spec names the lifecycle states
    {Scheduling, Running, Stopped, Failed, ...}; the decoder answers [None]
    for every integer that is not the tag of a variant, as prost does. *)
Inductive InstanceState : Set :=
| Running
| Stopped
| Failed
| Scheduling.

Definition InstanceState_as_i32 (s : InstanceState) : Z :=
  match s with
  | Running => 0
  | Stopped => 1
  | Failed => 2
  | Scheduling => 3
  end.

Definition InstanceState_from_i32 (n : Z) : option InstanceState :=
  if Z.eqb n 0 then Some Running
  else if Z.eqb n 1 then Some Stopped
  else if Z.eqb n 2 then Some Failed
  else if Z.eqb n 3 then Some Scheduling
  else None.

(** [Option::unwrap_or]. *)
Definition unwrap_or {A} (o : option A) (d : A) : A :=
  match o with Some a => a | None => d end.

(** [proto::scheduler] messages exchanged between scheduler and node agent. *)
Module ProtoScheduler.

Record ResourceSummary := {
  cpu : Z;
  memory : Z;
  disk : Z
}.

Record Resource := {
  limit : option ResourceSummary;
  usage : option ResourceSummary
}.

Record Port := {
  source : Z;
  destination : Z
}.

Record Instance := {
  id : string;
  name : string;
  type_ : Z;
  status : Z;
  environnement : list string;
  ip : string;
  ports : list Port;
  resource : option Resource;
  uri : string
}.

Record InstanceStatus := {
  status_id : string;
  status_status : Z;
  status_description : string;
  status_resource : option Resource
}.

(** [NodeStatus] is the heartbeat report of a node agent. *)
Record NodeStatus := {
  node_id : string;
  node_status : Z;
  node_status_description : string;
  node_resource : option Resource
}.

End ProtoScheduler.

(* ------------------------------------------------------------------------- *)
(** ** [std::net::Ipv4Addr] *)

(** An IPv4 address is a 32-bit integer; [Ipv4Addr::new] packs four octets. *)
Definition Ipv4Addr := Z.

Definition Ipv4Addr_new (a b c d : Z) : Ipv4Addr :=
  Z.lor (Z.shiftl (Z.land a 255) 24)
    (Z.lor (Z.shiftl (Z.land b 255) 16)
       (Z.lor (Z.shiftl (Z.land c 255) 8) (Z.land d 255))).

Definition Ipv4Addr_octets (ip : Ipv4Addr) : list Z :=
  [Z.land (Z.shiftr ip 24) 255; Z.land (Z.shiftr ip 16) 255;
   Z.land (Z.shiftr ip 8) 255; Z.land ip 255].

(** Decimal rendering of a non-negative integer (an octet here). *)
Fixpoint decimal_aux (fuel : nat) (n : Z) (acc : string) : string :=
  match fuel with
  | O => acc
  | S f =>
      let d := ascii_of_nat (48 + Z.to_nat (n mod 10))%nat in
      let acc' := String d acc in
      if Z.ltb n 10 then acc' else decimal_aux f (n / 10) acc'
  end.

Definition decimal (n : Z) : string := decimal_aux 20 n "".

(** [Ipv4Addr::to_string]: dotted-decimal notation. *)
Definition Ipv4Addr_to_string (ip : Ipv4Addr) : string :=
  String.concat "." (map decimal (Ipv4Addr_octets ip)).

(* ------------------------------------------------------------------------- *)
(** ** [external_api::instance::model] *)

Record ResourceSummary := {
  cpu : Z;
  memory : Z;
  disk : Z
}.

Record Resource := {
  limit : option ResourceSummary;
  usage : option ResourceSummary
}.

Record Port := {
  source : Z;
  dest : Z
}.

Record Instance := {
  id : string;
  name : string;
  type_ : Type_;
  state : InstanceState;
  status_description : string;
  num_restarts : Z;
  uri : string;
  environment : list string;
  resource : option Resource;
  ports : list Port;
  ip : Ipv4Addr;
  namespace : string
}.

(** The closure [|resource_summary| ResourceSummary { .. }] shared by
    [update_instance]: a field-by-field copy of a wire summary. *)
Definition summary_of_proto (s : ProtoScheduler.ResourceSummary) : ResourceSummary :=
  {| cpu := ProtoScheduler.cpu s;
     memory := ProtoScheduler.memory s;
     disk := ProtoScheduler.disk s |}.

Definition resource_of_proto (r : ProtoScheduler.Resource) : Resource :=
  {| limit := option_map summary_of_proto (ProtoScheduler.limit r);
     usage := option_map summary_of_proto (ProtoScheduler.usage r) |}.

(** [Instance::update_instance(&mut self, instance_status)]: the [&mut self]
    is threaded explicitly; the result is the instance after the call. *)
Definition update_instance (self : Instance) (instance_status : ProtoScheduler.InstanceStatus)
  : Instance :=
  {| id := id self;
     name := name self;
     type_ := type_ self;
     state := unwrap_or (InstanceState_from_i32 (ProtoScheduler.status_status instance_status))
                Scheduling;
     status_description := ProtoScheduler.status_description instance_status;
     num_restarts := num_restarts self;
     uri := uri self;
     environment := environment self;
     resource := option_map resource_of_proto (ProtoScheduler.status_resource instance_status);
     ports := ports self;
     ip := ip self;
     namespace := namespace self |}.

(** [impl Into<proto::scheduler::Instance> for Instance]. *)
Definition port_into_proto (port : Port) : ProtoScheduler.Port :=
  {| ProtoScheduler.source := source port;
     ProtoScheduler.destination := dest port |}.

Definition summary_into_proto (s : ResourceSummary) : ProtoScheduler.ResourceSummary :=
  {| ProtoScheduler.cpu := cpu s;
     ProtoScheduler.memory := memory s;
     ProtoScheduler.disk := disk s |}.

Definition resource_into_proto (r : Resource) : ProtoScheduler.Resource :=
  {| ProtoScheduler.limit := option_map summary_into_proto (limit r);
     ProtoScheduler.usage := option_map summary_into_proto (usage r) |}.

Definition into_proto (self : Instance) : ProtoScheduler.Instance :=
  {| ProtoScheduler.id := id self;
     ProtoScheduler.name := name self;
     ProtoScheduler.type_ := Type__as_i32 (type_ self);
     ProtoScheduler.status := InstanceState_as_i32 (state self);
     ProtoScheduler.environnement := environment self;
     ProtoScheduler.ip := Ipv4Addr_to_string (ip self);
     ProtoScheduler.ports := map port_into_proto (ports self);
     ProtoScheduler.resource := option_map resource_into_proto (resource self);
     ProtoScheduler.uri := uri self |}.

(** [external_api::workload::model::Workload], reduced to the fields that
    [From<Workload> for Instance] reads (workload/model.rs is not among the
    embedded sources; its field names are those used in model.rs). *)
Module WorkloadModel.

Record Resources := {
  cpu : Z;
  memory : Z;
  disk : Z
}.

Record Port := {
  source : Z;
  destination : Z
}.

Record Workload := {
  id : string;
  name : string;
  uri : string;
  environment : list string;
  resources : Resources;
  ports : list Port;
  namespace : string
}.

End WorkloadModel.

(** [rand::distributions::Alphanumeric] draws from these 62 characters. *)
Definition ALPHANUMERIC : string :=
  "ABCDEFGHIJKLMNOPQRSTUVWXYZabcdefghijklmnopqrstuvwxyz0123456789".

Definition alphanumeric_char (sample : nat) : ascii :=
  match String.get (Nat.modulo sample 62) ALPHANUMERIC with
  | Some c => c
  | None => "A"%char
  end.

(** [rand::thread_rng().sample_iter(&Alphanumeric).take(5).map(char::from)
    .collect()]: the thread RNG is an input, [rng i] being its [i]-th draw. *)
Fixpoint take_samples (k : nat) (rng : nat -> nat) (i : nat) : string :=
  match k with
  | O => EmptyString
  | S k' => String (alphanumeric_char (rng i)) (take_samples k' rng (S i))
  end.

Definition random_id (rng : nat -> nat) : string := take_samples 5 rng 0.

(** [format!("{}-{}", a, b)]. *)
Definition format_dash (a b : string) : string := a ++ "-" ++ b.

(** [impl From<Workload> for Instance]. *)
Definition instance_from_workload (rng : nat -> nat) (workload : WorkloadModel.Workload)
  : Instance :=
  let rid := random_id rng in
  {| id := format_dash (WorkloadModel.id workload) rid;
     name := format_dash (WorkloadModel.name workload) rid;
     type_ := Container;
     state := Scheduling;
     status_description := "";
     num_restarts := 0;
     uri := WorkloadModel.uri workload;
     environment := WorkloadModel.environment workload;
     namespace := WorkloadModel.namespace workload;
     resource := Some {| limit := Some {| cpu := WorkloadModel.cpu (WorkloadModel.resources workload);
                                          memory := WorkloadModel.memory (WorkloadModel.resources workload);
                                          disk := WorkloadModel.disk (WorkloadModel.resources workload) |};
                         usage := None |};
     ports := map (fun port => {| source := WorkloadModel.source port;
                                  dest := WorkloadModel.destination port |})
                (WorkloadModel.ports workload);
     ip := Ipv4Addr_new 10 0 0 1 |}.

(* ------------------------------------------------------------------------- *)
(** ** Results, [tonic::Status], logging and panics *)

Inductive Result (A E : Type) : Type :=
| Ok (a : A)
| Err (e : E).
Arguments Ok {A E} a.
Arguments Err {A E} e.

(** [Result::map_err]. *)
Definition map_err {A E F} (f : E -> F) (r : Result A E) : Result A F :=
  match r with Ok a => Ok a | Err e => Err (f e) end.

Inductive Code : Set :=
| Code_Ok
| Code_NotFound
| Code_Internal.

(** [tonic::Status]: a code and a caller-visible message. *)
Record Status := {
  code : Code;
  message : string
}.

(** [tonic::Status::internal(msg)]. *)
Definition Status_internal (msg : string) : Status :=
  {| code := Code_Internal; message := msg |}.

Inductive Level : Set := Info | Error.

Record LogLine := {
  level : Level;
  line : string
}.

(** The text of the panic raised by [Result::unwrap] on an [Err]. *)
Definition UNWRAP_ERR_PANIC : string := "called `Result::unwrap()` on an `Err` value".

(** [{:?}] of a [String]: the text between double quotes. *)
Definition quote : string := String (ascii_of_nat 34) EmptyString.
Definition debug_string (s : string) : string := quote ++ s ++ quote.

(* ------------------------------------------------------------------------- *)
(** ** [scheduler::event::handlers::instance_stop] *)

(** The orchestrator's error type lives outside the embedded sources; the
    handler only ever uses its [Debug] rendering, which is what we keep. *)
Record OrchestratorError := {
  orchestrator_error_debug : string
}.

(** A [oneshot::Sender]: whether its receiver is still alive decides whether
    [send] delivers the value ([Ok(())]) or hands it back ([Err(value)]). *)
Record OneshotSender := {
  receiver_alive : bool
}.

Definition oneshot_send {T} (tx : OneshotSender) (v : T) : Result unit T :=
  if receiver_alive tx then Ok tt else Err v.

(** The reply carried by an [InstanceStop] event: [Ok(Response(()))] or a
    [tonic::Status]. *)
Definition StopReply := Result unit Status.

(** What one run of the handler does: the lines it logged, then either the
    reply it delivered or the panic it raised. *)
Inductive HandleOutcome : Type :=
| Delivered (logs : list LogLine) (reply : StopReply)
| Panicked (logs : list LogLine) (panic_message : string).

(** [tx.send(reply).unwrap()] after the [logs] already written. *)
Definition send_unwrap (logs : list LogLine) (tx : OneshotSender) (reply : StopReply)
  : HandleOutcome :=
  match oneshot_send tx reply with
  | Ok _ => Delivered logs reply
  | Err _ => Panicked logs UNWRAP_ERR_PANIC
  end.

(** [InstanceStopHandler::handle(orchestrator, id, tx)]; the result of
    [orchestrator.lock().await.stop_instance(id.clone()).await] is an input. *)
Definition handle (stop_instance_result : Result unit OrchestratorError)
  (id : string) (tx : OneshotSender) : HandleOutcome :=
  match stop_instance_result with
  | Ok _ =>
      send_unwrap [ {| level := Info; line := "stopped instance : " ++ debug_string id |} ]
        tx (Ok tt)
  | Err err =>
      send_unwrap
        [ {| level := Error;
             line := "error while stopping instance : " ++ debug_string id ++ " ("
                     ++ orchestrator_error_debug err ++ ")" |} ]
        tx (Err (Status_internal ("Error thrown by the orchestrator: "
                                  ++ orchestrator_error_debug err)))
  end.

(* ------------------------------------------------------------------------- *)
(** ** [node-agent]: [InstanceServiceController::signal] *)

(** The workload manager lives outside the embedded sources; its
    [signal(instruction)] outcome is an input of the handler. *)
Record WorkloadManagerError := {
  workload_manager_error_debug : string
}.

(** The detached [tokio::spawn]ed task either finishes or panics. *)
Inductive TaskOutcome : Type :=
| TaskFinished
| TaskPanicked (panic_message : string).

(** [InstanceServiceController::signal(&self, request)]: the RPC reply and
    the outcome of the task it spawns. *)
Definition signal (workload_manager_signal : Result unit WorkloadManagerError)
  : Result unit Status * TaskOutcome :=
  let task :=
    match map_err (fun _ => Status_internal "Cannot send signal to the workload")
            workload_manager_signal with
    | Ok _ => TaskFinished
    | Err _ => TaskPanicked UNWRAP_ERR_PANIC
    end in
  (Ok tt, task).

(* ------------------------------------------------------------------------- *)
(** ** [node-agent]: startup retry loops of [create_grpc_client] *)

Definition NUMBER_OF_CONNECTION_ATTEMPTS : Z := 10.

(** [attempts += 1] on a [u16]. *)
Definition u16_add (a b : Z) : Z := (a + b) mod 65536.

(** [sleep(Duration::from_secs(1))]: the delay before each retry, in seconds. *)
Definition RETRY_DELAY_SECS : Z := 1.

(** Outcome of one startup phase: the number of calls made (the first one
    included) and the delays slept before the retries. *)
Inductive PhaseOutcome : Type :=
| Established (calls : nat) (delays : list Z)
| Fatal (calls : nat) (delays : list Z)
| Unfinished.

(** The loop
<<
    let mut attempts: u16 = 0;
    while result.is_none() {
        if attempts <= NUMBER_OF_CONNECTION_ATTEMPTS {
            sleep(Duration::from_secs(1));
            result = call().await;
            attempts += 1;
        } else { panic!(..) }
    }
>>
    where [call_ok k] tells whether the [k]-th call (0 is the call before
    the loop) returned [Some]. [fuel] bounds the iterations. *)
Fixpoint retry_loop (fuel : nat) (call_ok : nat -> bool) (is_some : bool)
  (attempts : Z) (calls : nat) (delays : list Z) : PhaseOutcome :=
  match fuel with
  | O => Unfinished
  | S f =>
      if is_some then Established calls delays
      else if Z.leb attempts NUMBER_OF_CONNECTION_ATTEMPTS then
        retry_loop f call_ok (call_ok calls) (u16_add attempts 1) (S calls)
          (delays ++ [RETRY_DELAY_SECS])
      else Fatal calls delays
  end.

(** One phase: the first call, then the loop with [attempts = 0]. *)
Definition startup_phase (call_ok : nat -> bool) : PhaseOutcome :=
  retry_loop (Nat.pow 2 16) call_ok (call_ok O) 0 1 [].

Inductive Phase : Set := Connect | Register | SendStatus.

Inductive ClientOutcome : Type :=
| ClientStreaming
| ClientPanicked (phase : Phase) (calls : nat)
| ClientUnfinished.

(** [create_grpc_client]: the three phases run in sequence, each with its
    own retry loop; [connect_ok], [register_ok] and [status_ok] say which
    calls of [connect_to_scheduler], [register_to_scheduler] and
    [send_node_status_to_scheduler] return [Some]. *)
Definition create_grpc_client (connect_ok register_ok status_ok : nat -> bool)
  : ClientOutcome :=
  match startup_phase connect_ok with
  | Fatal n _ => ClientPanicked Connect n
  | Unfinished => ClientUnfinished
  | Established _ _ =>
      match startup_phase register_ok with
      | Fatal n _ => ClientPanicked Register n
      | Unfinished => ClientUnfinished
      | Established _ _ =>
          match startup_phase status_ok with
          | Fatal n _ => ClientPanicked SendStatus n
          | Unfinished => ClientUnfinished
          | Established _ _ => ClientStreaming
          end
      end
  end.

(* ------------------------------------------------------------------------- *)
(** ** [node-agent]: the heartbeat stream of [send_node_status_to_scheduler] *)

From Stdlib Require Import Streams.

(** A reading of [node_manager::NodeSystem] taken under its lock. *)
Record NodeSystem := {
  total_cpu : Z;
  total_memory : Z;
  total_disk : Z;
  used_cpu : Z;
  used_memory : Z;
  used_disk : Z
}.

(** [SchedulerStatus::Running as i32]. *)
Definition SchedulerStatus_Running : Z := 1.

(** [time::interval(Duration::from_secs(1))]: the [k]-th tick completes
    [k] seconds after the interval is created (the first one at once). *)
Definition INTERVAL_MS : Z := 1000.

(** The body of the [loop]: [sys r] is what the [r]-th
    [node_system_arc.lock().await] observes; [reads] counts the locks
    taken so far and [tick] the ticks. Each element of the stream is the
    time (ms after stream start) at which it is yielded and the report. *)
CoFixpoint heartbeat_loop (sys : nat -> NodeSystem) (node_id : string)
  (limit : ProtoScheduler.ResourceSummary) (reads tick : nat)
  : Stream (Z * ProtoScheduler.NodeStatus) :=
  let cpu_usage := used_cpu (sys reads) in
  let memory_usage := used_memory (sys (S reads)) in
  let disk_usage := used_disk (sys (S (S reads))) in
  let node_status :=
    {| ProtoScheduler.node_id := node_id;
       ProtoScheduler.node_status := SchedulerStatus_Running;
       ProtoScheduler.node_status_description := "";
       ProtoScheduler.node_resource :=
         Some {| ProtoScheduler.limit := Some limit;
                 ProtoScheduler.usage :=
                   Some {| ProtoScheduler.cpu := cpu_usage;
                           ProtoScheduler.memory := memory_usage;
                           ProtoScheduler.disk := disk_usage |} |} |} in
  Cons (Z.of_nat tick * INTERVAL_MS, node_status)
    (heartbeat_loop sys node_id limit (3 + reads) (S tick)).

(** [node_status_stream]: the limits are read once (locks 0, 1, 2), then
    the loop starts. *)
Definition node_status_stream (sys : nat -> NodeSystem) (node_id : string)
  : Stream (Z * ProtoScheduler.NodeStatus) :=
  let cpu_limit := total_cpu (sys 0%nat) in
  let memory_limit := total_memory (sys 1%nat) in
  let disk_limit := total_disk (sys 2%nat) in
  heartbeat_loop sys node_id
    {| ProtoScheduler.cpu := cpu_limit;
       ProtoScheduler.memory := memory_limit;
       ProtoScheduler.disk := disk_limit |} 3 0.

(* ------------------------------------------------------------------------- *)
(** ** [external_api::instance::model::InstanceError] and its [Display] *)



(* ------------------------------------------------------------------------- *)
(** ** [external_api::instance::controller]: the HTTP handlers *)

(** [HttpResponse::build(code).body(text)]. *)
Record HttpResponse := {
  http_status : Z;
  http_body : string
}.

Definition respond (code : Z) (body : string) : HttpResponse :=
  {| http_status := code; http_body := body |}.

Definition CREATED : Z := 201.
Definition OK_ : Z := 200.
Definition NOT_FOUND : Z := 404.
Definition INTERNAL_SERVER_ERROR : Z := 500.

(** The services the handlers call ([WorkloadService], [InstanceService])
    live outside the embedded sources: what each call answers is an input,
    and the handler's result records the calls it made, in order. *)
Record Backend := {
  (** [workload_service.get_workload(&workload_id, &namespace)] *)
  get_workload : string -> string -> Result string unit;
  (** [serde_json::from_str::<Workload>(&workload_str).is_ok()] *)
  parses_as_workload : string -> bool;
  (** [instance_service.get_instance(&workload_id)] *)
  get_instance : string -> Result Instance unit;
  (** [instance_service.delete_instance(instance)] *)
  delete_instance : Instance -> Result unit unit;
  (** [InstanceService::retrieve_and_start_instance(.., &workload_id)] *)
  retrieve_and_start_instance : string -> Result unit unit;
  (** [serde_json::to_string(&instance)] *)
  instance_to_json : Instance -> Result string unit
}.

Inductive Call : Type :=
| CallGetWorkload (workload_id namespace : string)
| CallGetInstance (workload_id : string)
| CallDeleteInstance (instance : Instance)
| CallRetrieveAndStart (workload_id : string).

(** [InstanceController::put_instance(namespace, workload_id)]. *)
Definition put_instance (b : Backend) (namespace workload_id : string)
  : list Call * HttpResponse :=
  match get_workload b workload_id namespace with
  | Ok workload_str =>
      if parses_as_workload b workload_str then
        let calls := [CallGetWorkload workload_id namespace;
                      CallRetrieveAndStart workload_id] in
        match retrieve_and_start_instance b workload_id with
        | Ok _ => (calls, respond CREATED "Instance creating and starting...")
        | Err _ => (calls, respond INTERNAL_SERVER_ERROR "Internal Server Error")
        end
      else ([CallGetWorkload workload_id namespace],
            respond INTERNAL_SERVER_ERROR "Internal Server Error")
  | Err _ => ([CallGetWorkload workload_id namespace], respond NOT_FOUND "Workload not found")
  end.

(** [InstanceController::delete_instance(namespace, workload_id)]. *)
Definition delete_instance_handler (b : Backend) (namespace workload_id : string)
  : list Call * HttpResponse :=
  match get_workload b workload_id namespace with
  | Ok _ =>
      match get_instance b workload_id with
      | Ok instance =>
          let calls := [CallGetWorkload workload_id namespace; CallGetInstance workload_id;
                        CallDeleteInstance instance] in
          match delete_instance b instance with
          | Ok _ => (calls, respond OK_ "Instance deleted")
          | Err _ => (calls, respond INTERNAL_SERVER_ERROR "Internal Server Error")
          end
      | Err _ => ([CallGetWorkload workload_id namespace; CallGetInstance workload_id],
                  respond NOT_FOUND "Instance not found")
      end
  | Err _ => ([CallGetWorkload workload_id namespace], respond NOT_FOUND "Workload not found")
  end.

(** [InstanceController::patch_instance(namespace, workload_id)]. *)
Definition patch_instance (b : Backend) (namespace workload_id : string)
  : list Call * HttpResponse :=
  match get_workload b workload_id namespace with
  | Ok _ =>
      match get_instance b workload_id with
      | Ok instance =>
          match delete_instance b instance with
          | Ok _ =>
              let calls := [CallGetWorkload workload_id namespace; CallGetInstance workload_id;
                            CallDeleteInstance instance; CallRetrieveAndStart workload_id] in
              match retrieve_and_start_instance b workload_id with
              | Ok _ => (calls, respond CREATED "Instance creating and starting...")
              | Err _ => (calls, respond INTERNAL_SERVER_ERROR "Internal Server Error")
              end
          | Err _ => ([CallGetWorkload workload_id namespace; CallGetInstance workload_id;
                       CallDeleteInstance instance],
                      respond INTERNAL_SERVER_ERROR "Internal Server Error")
          end
      | Err _ => ([CallGetWorkload workload_id namespace; CallGetInstance workload_id],
                  respond NOT_FOUND "Instance not found")
      end
  | Err _ => ([CallGetWorkload workload_id namespace], respond NOT_FOUND "Workload not found")
  end.

(** [InstanceController::get_instance(namespace, workload_id)]. *)
Definition get_instance_handler (b : Backend) (namespace workload_id : string)
  : list Call * HttpResponse :=
  match get_workload b workload_id namespace with
  | Ok _ =>
      let calls := [CallGetWorkload workload_id namespace; CallGetInstance workload_id] in
      match get_instance b workload_id with
      | Ok instance =>
          match instance_to_json b instance with
          | Ok instance_str => (calls, respond OK_ instance_str)
          | Err _ => (calls, respond INTERNAL_SERVER_ERROR "Internal Server Error")
          end
      | Err _ => (calls, respond INTERNAL_SERVER_ERROR "Internal Server Error")
      end
  | Err _ => ([CallGetWorkload workload_id namespace], respond NOT_FOUND "Instance not found")
  end.

(* ========================================================================= *)
(** * Properties *)

(** ** Helper lemmas *)

Lemma alphanumeric_char_in_charset : forall sample,
  In (alphanumeric_char sample) (list_ascii_of_string ALPHANUMERIC).
Proof.
  intro sample.
  assert (Hall : forallb (fun k => match String.get k ALPHANUMERIC with
                                   | Some c => existsb (Ascii.eqb c)
                                                 (list_ascii_of_string ALPHANUMERIC)
                                   | None => false end) (seq 0 62) = true)
    by reflexivity.
  rewrite forallb_forall in Hall.
  assert (Hk : In (Nat.modulo sample 62) (seq 0 62)).
  { apply in_seq. pose proof (Nat.mod_upper_bound sample 62). lia. }
  specialize (Hall _ Hk). unfold alphanumeric_char.
  destruct (String.get (Nat.modulo sample 62) ALPHANUMERIC) as [c|]; [|discriminate].
  apply existsb_exists in Hall as [c' [Hin Heq]].
  apply Ascii.eqb_eq in Heq. subst c'. exact Hin.
Qed.

Lemma take_samples_length : forall k rng i,
  String.length (take_samples k rng i) = k.
Proof.
  induction k as [|k IH]; intros rng i; simpl; [reflexivity|].
  rewrite IH. reflexivity.
Qed.

Lemma take_samples_alphanumeric : forall k rng i c,
  In c (list_ascii_of_string (take_samples k rng i)) ->
  In c (list_ascii_of_string ALPHANUMERIC).
Proof.
  induction k as [|k IH]; intros rng i c Hin; simpl in Hin; [contradiction|].
  destruct Hin as [<-|Hin].
  - apply alphanumeric_char_in_charset.
  - eapply IH. exact Hin.
Qed.

Lemma heartbeat_loop_nth : forall n sys node_id lim reads tick,
  Str_nth n (heartbeat_loop sys node_id lim reads tick) =
  (Z.of_nat (tick + n) * INTERVAL_MS,
   {| ProtoScheduler.node_id := node_id;
      ProtoScheduler.node_status := SchedulerStatus_Running;
      ProtoScheduler.node_status_description := "";
      ProtoScheduler.node_resource :=
        Some {| ProtoScheduler.limit := Some lim;
                ProtoScheduler.usage :=
                  Some {| ProtoScheduler.cpu := used_cpu (sys (reads + 3 * n)%nat);
                          ProtoScheduler.memory := used_memory (sys (S (reads + 3 * n)));
                          ProtoScheduler.disk := used_disk (sys (S (S (reads + 3 * n)))) |} |} |}).
Proof.
  induction n as [|n IH]; intros sys node_id lim reads tick.
  - unfold Str_nth; simpl. rewrite Nat.add_0_r, Nat.add_0_r. reflexivity.
  - unfold Str_nth. simpl Str_nth_tl.
    change (hd (Str_nth_tl n (heartbeat_loop sys node_id lim (S (S (S reads))) (S tick))))
      with (Str_nth n (heartbeat_loop sys node_id lim (S (S (S reads))) (S tick))).
    rewrite IH.
    replace (S tick + n)%nat with (tick + S n)%nat by lia.
    replace (S (S (S reads)) + 3 * n)%nat with (reads + 3 * S n)%nat by lia.
    reflexivity.
Qed.

(** ** C1: a reply that cannot be delivered *)

(** C1 (counterexample): the stop succeeded, but the caller's receiver was
    dropped; [tx.send(..).unwrap()] panics instead of logging and going on. *)
Lemma C1_dropped_receiver_panics :
  handle (Ok tt) "web-abcde" {| receiver_alive := false |} =
  Panicked [ {| level := Info; line := "stopped instance : " ++ debug_string "web-abcde" |} ]
    UNWRAP_ERR_PANIC.
Proof. reflexivity. Qed.

(** C1 (amended): whatever the orchestrator answered, when the receiver of
    the reply channel is gone [InstanceStopHandler::handle] panics with the
    [unwrap] message after writing its one log line about the stop, and
    it never logs the failed send; when the receiver is alive the reply is
    delivered. *)
Theorem C1_handle_reply_send :
  forall (r : Result unit OrchestratorError) (id : string),
    (exists l, handle r id {| receiver_alive := false |} = Panicked [l] UNWRAP_ERR_PANIC) /\
    (exists l reply, handle r id {| receiver_alive := true |} = Delivered [l] reply).
Proof.
  intros [a|e] id; split; simpl; unfold send_unwrap; simpl; eauto.
Qed.

(** ** C2: the startup retry bound *)

(** C2: in each of the three phases, when every call fails the agent panics
    after exactly 12 calls (the first one and 11 retries, each after a
    1-second sleep), not 11: [attempts <= NUMBER_OF_CONNECTION_ATTEMPTS]
    lets [attempts] run from 0 to 10 inclusive. *)
Theorem C2_each_phase_twelve_calls :
  forall connect_ok register_ok status_ok : nat -> bool,
    startup_phase (fun _ => false) = Fatal 12 (repeat RETRY_DELAY_SECS 11) /\
    startup_phase (fun k => Nat.eqb k 11) = Established 12 (repeat RETRY_DELAY_SECS 11) /\
    create_grpc_client (fun _ => false) register_ok status_ok = ClientPanicked Connect 12 /\
    create_grpc_client (fun _ => true) (fun _ => false) status_ok = ClientPanicked Register 12 /\
    create_grpc_client (fun _ => true) (fun _ => true) (fun _ => false)
      = ClientPanicked SendStatus 12.
Proof.
  intros connect_ok register_ok status_ok.
  repeat split; vm_compute; reflexivity.
Qed.

(** ** C3: what a status report overwrites *)

(** An instance created from a workload with a declared limit. *)
Definition sample_workload : WorkloadModel.Workload :=
  {| WorkloadModel.id := "web";
     WorkloadModel.name := "web";
     WorkloadModel.uri := "docker.io/nginx";
     WorkloadModel.environment := [];
     WorkloadModel.resources := {| WorkloadModel.cpu := 2;
                                   WorkloadModel.memory := 2048;
                                   WorkloadModel.disk := 10 |};
     WorkloadModel.ports := [ {| WorkloadModel.source := 80;
                                 WorkloadModel.destination := 8080 |} ];
     WorkloadModel.namespace := "default" |}.

Definition sample_rng (i : nat) : nat := i.

(** A report from the node without any resource block. *)
Definition running_report_without_resource : ProtoScheduler.InstanceStatus :=
  {| ProtoScheduler.status_id := "web-ABCDE";
     ProtoScheduler.status_status := InstanceState_as_i32 Running;
     ProtoScheduler.status_description := "running";
     ProtoScheduler.status_resource := None |}.

(** C3 (counterexample): the declared limit of the instance does not survive
    a report that carries no resource: the whole [resource] is replaced. *)
Lemma C3_limit_overwritten :
  option_map limit (resource (instance_from_workload sample_rng sample_workload))
    = Some (Some {| cpu := 2; memory := 2048; disk := 10 |}) /\
  resource (update_instance (instance_from_workload sample_rng sample_workload)
              running_report_without_resource) = None.
Proof. split; reflexivity. Qed.

(** C3 (amended): [update_instance] sets [state] (decoded from the report,
    [Scheduling] when undecodable), [status_description], and the whole
    [resource] (both [limit] and [usage], [None] when the report has none)
    from the report; every other field is unchanged. *)
Theorem C3_update_instance_frame :
  forall (i : Instance) (r : ProtoScheduler.InstanceStatus),
    let i' := update_instance i r in
    state i' = unwrap_or (InstanceState_from_i32 (ProtoScheduler.status_status r)) Scheduling /\
    status_description i' = ProtoScheduler.status_description r /\
    resource i' = option_map resource_of_proto (ProtoScheduler.status_resource r) /\
    id i' = id i /\ name i' = name i /\ type_ i' = type_ i /\
    num_restarts i' = num_restarts i /\ uri i' = uri i /\
    environment i' = environment i /\ ports i' = ports i /\
    ip i' = ip i /\ namespace i' = namespace i.
Proof.
  intros i r; simpl; repeat split.
Qed.

(** ** C4: an instance created from a workload *)

(** C4: the instance made from a workload has id [workload.id-suffix] and
    name [workload.name-suffix] for one suffix of 5 alphanumeric characters
    drawn from the RNG, state [Scheduling], no restarts, the workload's
    cpu/memory/disk as [resource.limit] and no [resource.usage]. *)
Theorem C4_instance_from_workload :
  forall (rng : nat -> nat) (w : WorkloadModel.Workload),
    let i := instance_from_workload rng w in
    exists suffix : string,
      String.length suffix = 5%nat /\
      (forall c, In c (list_ascii_of_string suffix) ->
                 In c (list_ascii_of_string ALPHANUMERIC)) /\
      id i = WorkloadModel.id w ++ "-" ++ suffix /\
      name i = WorkloadModel.name w ++ "-" ++ suffix /\
      state i = Scheduling /\
      num_restarts i = 0 /\
      resource i = Some {| limit := Some {| cpu := WorkloadModel.cpu (WorkloadModel.resources w);
                                            memory := WorkloadModel.memory (WorkloadModel.resources w);
                                            disk := WorkloadModel.disk (WorkloadModel.resources w) |};
                           usage := None |}.
Proof.
  intros rng w i. exists (random_id rng).
  split; [apply take_samples_length|].
  split; [intros c Hc; eapply take_samples_alphanumeric; exact Hc|].
  repeat split.
Qed.

(** ** C5: the heartbeat stream *)

(** C5: the [n]-th report of the heartbeat stream is yielded at tick [n]
    ([n] seconds after the stream starts) and carries the limits read once
    before the loop (locks 0, 1, 2) and the usage read at that tick (locks
    [3 + 3n], [4 + 3n], [5 + 3n]). *)
Theorem C5_heartbeat_reports :
  forall (sys : nat -> NodeSystem) (node_id : string) (n : nat),
    Str_nth n (node_status_stream sys node_id) =
    (Z.of_nat n * 1000,
     {| ProtoScheduler.node_id := node_id;
        ProtoScheduler.node_status := SchedulerStatus_Running;
        ProtoScheduler.node_status_description := "";
        ProtoScheduler.node_resource :=
          Some {| ProtoScheduler.limit :=
                    Some {| ProtoScheduler.cpu := total_cpu (sys 0%nat);
                            ProtoScheduler.memory := total_memory (sys 1%nat);
                            ProtoScheduler.disk := total_disk (sys 2%nat) |};
                  ProtoScheduler.usage :=
                    Some {| ProtoScheduler.cpu := used_cpu (sys (3 + 3 * n)%nat);
                            ProtoScheduler.memory := used_memory (sys (4 + 3 * n)%nat);
                            ProtoScheduler.disk := used_disk (sys (5 + 3 * n)%nat) |} |} |}).
Proof.
  intros sys node_id n. unfold node_status_stream.
  rewrite heartbeat_loop_nth. reflexivity.
Qed.

(** ** C6: conversion to the wire [Instance] *)

Definition proto_summary_triple (s : ProtoScheduler.ResourceSummary) : Z * Z * Z :=
  (ProtoScheduler.cpu s, ProtoScheduler.memory s, ProtoScheduler.disk s).

Definition summary_triple (s : ResourceSummary) : Z * Z * Z :=
  (cpu s, memory s, disk s).

(** C6: [into] keeps the id, the source/destination of every port in order,
    and the cpu/memory/disk of [resource.limit] and [resource.usage], with
    each optional field present exactly when it was. *)
Theorem C6_into_proto_preserves :
  forall i : Instance,
    let p := into_proto i in
    ProtoScheduler.id p = id i /\
    List.map (fun q => (ProtoScheduler.source q, ProtoScheduler.destination q))
        (ProtoScheduler.ports p)
      = List.map (fun q => (source q, dest q)) (ports i) /\
    option_map (fun r => (option_map proto_summary_triple (ProtoScheduler.limit r),
                          option_map proto_summary_triple (ProtoScheduler.usage r)))
               (ProtoScheduler.resource p)
      = option_map (fun r => (option_map summary_triple (limit r),
                              option_map summary_triple (usage r)))
                   (resource i).
Proof.
  intros i p. subst p. split; [reflexivity|]. split.
  - simpl. rewrite List.map_map. reflexivity.
  - simpl. destruct (resource i) as [[[l|] [u|]]|]; reflexivity.
Qed.

(** ** C7: a signal the workload manager cannot deliver *)

(** C7: the [signal] RPC answers [Ok(())] whatever the workload manager
    says; when its [signal] fails, the [Status::internal] built for the
    failure is unwrapped inside the detached task, which panics, and the
    caller never sees it. *)
Theorem C7_signal_failure_not_reported :
  forall e : WorkloadManagerError,
    signal (Err e) = (Ok tt, TaskPanicked UNWRAP_ERR_PANIC) /\
    signal (Ok tt) = (Ok tt, TaskFinished).
Proof. intro e; split; reflexivity. Qed.

(** ** C8: what a failed stop tells the caller *)

(** C8 (counterexample): the orchestrator's [Debug] rendering of its error
    reaches the caller verbatim inside the [Status] message. *)
Lemma C8_error_detail_leaked :
  let detail := "TonicTransportError(transport error)" in
  exists logs pre,
    handle (Err {| orchestrator_error_debug := detail |}) "web-abcde"
      {| receiver_alive := true |}
    = Delivered logs (Err {| code := Code_Internal; message := pre ++ detail |}).
Proof.
  simpl. eexists _, "Error thrown by the orchestrator: ". reflexivity.
Qed.

(** C8 (amended): when [stop_instance] fails and the reply can be
    delivered, the caller receives an [Internal] status whose message is
    ["Error thrown by the orchestrator: "] followed by the [Debug]
    rendering of the orchestrator error. *)
Theorem C8_stop_failure_status :
  forall (err : OrchestratorError) (id : string),
    exists logs,
      handle (Err err) id {| receiver_alive := true |}
      = Delivered logs (Err {| code := Code_Internal;
                               message := "Error thrown by the orchestrator: "
                                          ++ orchestrator_error_debug err |}).
Proof. intros err id. eexists. reflexivity. Qed.

(** ** C9: undecodable status integers *)

(** C9: [update_instance] is a total function of any [i32] status; a status
    that decodes to no [InstanceState] leaves the instance [Scheduling]. *)
Theorem C9_unknown_status_scheduling :
  forall (i : Instance) (r : ProtoScheduler.InstanceStatus),
    InstanceState_from_i32 (ProtoScheduler.status_status r) = None ->
    state (update_instance i r) = Scheduling.
Proof.
  intros i r H. simpl. rewrite H. reflexivity.
Qed.

Lemma C9_unknown_status_scheduling_witness :
  InstanceState_from_i32 1000 = None /\
  state (update_instance (instance_from_workload sample_rng sample_workload)
           {| ProtoScheduler.status_id := "web-ABCDE";
              ProtoScheduler.status_status := 1000;
              ProtoScheduler.status_description := "";
              ProtoScheduler.status_resource := None |}) = Scheduling.
Proof.
  split; [reflexivity|].
  apply C9_unknown_status_scheduling. reflexivity.
Defined.

(** ** C10: the address of a new instance *)

(** C10: every instance made from a workload gets the address 10.0.0.1, so
    any two of them have the same [ip]. *)
Theorem C10_fixed_ip :
  forall (rng rng' : nat -> nat) (w w' : WorkloadModel.Workload),
    ip (instance_from_workload rng w) = Ipv4Addr_new 10 0 0 1 /\
    Ipv4Addr_to_string (ip (instance_from_workload rng w)) = "10.0.0.1" /\
    ip (instance_from_workload rng w) = ip (instance_from_workload rng' w').
Proof. intros; repeat split. Qed.

(* ========================================================================= *)
(** * Further properties of the embedded code *)

(** ** The startup retry loop, in general *)

Lemma u16_add_small : forall c : nat,
  (c <= 12)%nat -> u16_add (Z.of_nat c - 1) 1 = Z.of_nat (S c) - 1.
Proof.
  intros c Hc. unfold u16_add.
  replace (Z.of_nat c - 1 + 1) with (Z.of_nat c) by lia.
  rewrite Z.mod_small by lia. lia.
Qed.

Section RetryLoop.

Variable call_ok : nat -> bool.

(** Once [c] calls were made, if the next [d] results (the last one made
    included) fail and the one after succeeds, the loop stops after
    [c + d] calls, having slept [d] more times. *)
Lemma retry_loop_success : forall d c fuel delays,
  (1 <= c)%nat -> (c + d <= 12)%nat -> (d < fuel)%nat ->
  (forall j, (c - 1 <= j < c - 1 + d)%nat -> call_ok j = false) ->
  call_ok (c - 1 + d)%nat = true ->
  retry_loop fuel call_ok (call_ok (c - 1)%nat) (Z.of_nat c - 1) c delays
  = Established (c + d) (delays ++ repeat RETRY_DELAY_SECS d).
Proof.
  induction d as [|d IH]; intros c fuel delays H1 Hb Hf Hfail Hok;
    destruct fuel as [|fuel]; try lia.
  - rewrite Nat.add_0_r in Hok. simpl. rewrite Hok, Nat.add_0_r, app_nil_r. reflexivity.
  - simpl. rewrite (Hfail (c - 1)%nat) by lia.
    replace (Z.leb (Z.of_nat c - 1) NUMBER_OF_CONNECTION_ATTEMPTS) with true
      by (symmetry; apply Z.leb_le; unfold NUMBER_OF_CONNECTION_ATTEMPTS; lia).
    rewrite u16_add_small by lia.
    replace (call_ok c) with (call_ok (S c - 1)%nat) by (f_equal; lia).
    rewrite (IH (S c) fuel (delays ++ [RETRY_DELAY_SECS])%list).
    2-4: lia.
    2: { intros j Hj. apply Hfail. lia. }
    2: { replace (S c - 1 + d)%nat with (c - 1 + S d)%nat by lia. exact Hok. }
    rewrite <- app_assoc. simpl. f_equal. lia.
Qed.

(** Once [c] calls were made, if every result up to the 12th call fails,
    the loop gives up after the 12th call. *)
Lemma retry_loop_exhaust : forall d c fuel delays,
  (1 <= c)%nat -> (c + d = 12)%nat -> (d < fuel)%nat ->
  (forall j, (c - 1 <= j < 12)%nat -> call_ok j = false) ->
  retry_loop fuel call_ok (call_ok (c - 1)%nat) (Z.of_nat c - 1) c delays
  = Fatal 12 (delays ++ repeat RETRY_DELAY_SECS d).
Proof.
  induction d as [|d IH]; intros c fuel delays H1 Hb Hf Hfail;
    destruct fuel as [|fuel]; try lia.
  - simpl. rewrite (Hfail (c - 1)%nat) by lia.
    replace (Z.leb (Z.of_nat c - 1) NUMBER_OF_CONNECTION_ATTEMPTS) with false
      by (symmetry; apply Z.leb_gt; unfold NUMBER_OF_CONNECTION_ATTEMPTS; lia).
    rewrite app_nil_r. replace c with 12%nat by lia. reflexivity.
  - simpl. rewrite (Hfail (c - 1)%nat) by lia.
    replace (Z.leb (Z.of_nat c - 1) NUMBER_OF_CONNECTION_ATTEMPTS) with true
      by (symmetry; apply Z.leb_le; unfold NUMBER_OF_CONNECTION_ATTEMPTS; lia).
    rewrite u16_add_small by lia.
    replace (call_ok c) with (call_ok (S c - 1)%nat) by (f_equal; lia).
    rewrite (IH (S c) fuel (delays ++ [RETRY_DELAY_SECS])%list).
    2-4: lia.
    2: { intros j Hj. apply Hfail. lia. }
    rewrite <- app_assoc. reflexivity.
Qed.

End RetryLoop.

Lemma fuel_large : (12 <= Nat.pow 2 16)%nat.
Proof. apply Nat.leb_le. vm_compute. reflexivity. Qed.

Lemma startup_phase_as_loop : forall call_ok,
  startup_phase call_ok =
  retry_loop (Nat.pow 2 16) call_ok (call_ok (1 - 1)%nat) (Z.of_nat 1 - 1) 1 [].
Proof. reflexivity. Qed.

(** A startup phase whose first successful call is the [k]-th one (counting
    from 0), with [k <= 11], completes after [k + 1] calls, having slept
    one second before each of the [k] retries. *)
Theorem startup_phase_first_success : forall (call_ok : nat -> bool) (k : nat),
  (k <= 11)%nat -> call_ok k = true -> (forall j, (j < k)%nat -> call_ok j = false) ->
  startup_phase call_ok = Established (S k) (repeat RETRY_DELAY_SECS k).
Proof.
  intros call_ok k Hk Hok Hfail. rewrite startup_phase_as_loop.
  rewrite (retry_loop_success call_ok k 1 (Nat.pow 2 16) []).
  - reflexivity.
  - lia.
  - lia.
  - pose proof fuel_large. lia.
  - intros j Hj. apply Hfail. lia.
  - simpl. exact Hok.
Qed.

(** The scenario of a scheduler that refuses the first 5 calls. *)
Lemma startup_phase_first_success_witness :
  startup_phase (fun j => Nat.eqb j 5) = Established 6 (repeat RETRY_DELAY_SECS 5).
Proof.
  apply (startup_phase_first_success (fun j => Nat.eqb j 5) 5%nat).
  - lia.
  - reflexivity.
  - intros j Hj. apply Nat.eqb_neq. lia.
Defined.

(** A startup phase whose first 12 calls all fail gives up (the agent
    panics) after exactly those 12 calls, whatever later calls would do. *)
Theorem startup_phase_exhausted : forall call_ok : nat -> bool,
  (forall j, (j < 12)%nat -> call_ok j = false) ->
  startup_phase call_ok = Fatal 12 (repeat RETRY_DELAY_SECS 11).
Proof.
  intros call_ok Hfail. rewrite startup_phase_as_loop.
  rewrite (retry_loop_exhaust call_ok 11 1 (Nat.pow 2 16) []).
  - reflexivity.
  - lia.
  - lia.
  - pose proof fuel_large. lia.
  - intros j Hj. apply Hfail. lia.
Qed.

Lemma startup_phase_exhausted_witness :
  (forall j, (j < 12)%nat -> Nat.leb 12 j = false) /\
  startup_phase (fun j => Nat.leb 12 j) = Fatal 12 (repeat RETRY_DELAY_SECS 11).
Proof.
  assert (H : forall j, (j < 12)%nat -> Nat.leb 12 j = false)
    by (intros j Hj; apply Nat.leb_gt; lia).
  split; [exact H|].
  apply startup_phase_exhausted. exact H.
Defined.

(** [create_grpc_client] reaches the streaming state whenever each of its
    three phases has a successful call among its first 12. *)
Theorem create_grpc_client_streams :
  forall (connect_ok register_ok status_ok : nat -> bool) (kc kr ks : nat),
    (kc <= 11)%nat -> connect_ok kc = true -> (forall j, (j < kc)%nat -> connect_ok j = false) ->
    (kr <= 11)%nat -> register_ok kr = true -> (forall j, (j < kr)%nat -> register_ok j = false) ->
    (ks <= 11)%nat -> status_ok ks = true -> (forall j, (j < ks)%nat -> status_ok j = false) ->
    create_grpc_client connect_ok register_ok status_ok = ClientStreaming.
Proof.
  intros c r s kc kr ks Hc1 Hc2 Hc3 Hr1 Hr2 Hr3 Hs1 Hs2 Hs3.
  unfold create_grpc_client.
  rewrite (startup_phase_first_success c kc), (startup_phase_first_success r kr),
    (startup_phase_first_success s ks) by assumption.
  reflexivity.
Qed.

Lemma create_grpc_client_streams_witness :
  create_grpc_client (fun j => Nat.eqb j 5) (fun j => Nat.eqb j 0) (fun j => Nat.eqb j 11)
  = ClientStreaming.
Proof.
  apply (create_grpc_client_streams _ _ _ 5 0 11); try lia; try reflexivity;
    intros j Hj; apply Nat.eqb_neq; lia.
Defined.

(** ** Status reports and the wire form of an instance *)

(** A second report replaces everything a first one set: applying two
    reports in turn is the same as applying only the last one. *)
Theorem update_instance_last_report_wins :
  forall (i : Instance) (r1 r2 : ProtoScheduler.InstanceStatus),
    update_instance (update_instance i r1) r2 = update_instance i r2.
Proof. intros i r1 r2. reflexivity. Qed.

(** A report carrying back the status and the resource of the instance's
    own wire form, with its status description, leaves the instance as it
    was: the wire encoding of [state] and [resource] is undone by
    [update_instance]. *)
Theorem update_instance_wire_roundtrip : forall i : Instance,
  update_instance i
    {| ProtoScheduler.status_id := ProtoScheduler.id (into_proto i);
       ProtoScheduler.status_status := ProtoScheduler.status (into_proto i);
       ProtoScheduler.status_description := status_description i;
       ProtoScheduler.status_resource := ProtoScheduler.resource (into_proto i) |} = i.
Proof.
  intros [id0 name0 ty st desc nr uri0 env res ps ip0 ns].
  unfold update_instance, into_proto; simpl.
  f_equal.
  - destruct st; reflexivity.
  - destruct res as [[[[c m d]|] [[c' m' d']|]]|]; reflexivity.
Qed.

(** The wire form of an instance freshly made from a workload: status
    [Scheduling], type [Container], address "10.0.0.1", the workload's
    ports in order and its resources as the limit, with no usage. *)
Theorem into_proto_from_workload :
  forall (rng : nat -> nat) (w : WorkloadModel.Workload),
    let p := into_proto (instance_from_workload rng w) in
    ProtoScheduler.status p = InstanceState_as_i32 Scheduling /\
    ProtoScheduler.type_ p = Type__as_i32 Container /\
    ProtoScheduler.ip p = "10.0.0.1" /\
    List.map (fun q => (ProtoScheduler.source q, ProtoScheduler.destination q))
             (ProtoScheduler.ports p)
      = List.map (fun q => (WorkloadModel.source q, WorkloadModel.destination q))
                 (WorkloadModel.ports w) /\
    ProtoScheduler.resource p =
      Some {| ProtoScheduler.limit :=
                Some {| ProtoScheduler.cpu := WorkloadModel.cpu (WorkloadModel.resources w);
                        ProtoScheduler.memory := WorkloadModel.memory (WorkloadModel.resources w);
                        ProtoScheduler.disk := WorkloadModel.disk (WorkloadModel.resources w) |};
              ProtoScheduler.usage := None |}.
Proof.
  intros rng w p. subst p. repeat split.
  simpl. rewrite !List.map_map. reflexivity.
Qed.

Lemma string_app_cancel_l : forall p s t : string, p ++ s = p ++ t -> s = t.
Proof.
  induction p as [|c p IH]; intros s t H; simpl in H; [exact H|].
  injection H as H. apply IH. exact H.
Qed.

(** Two instances made from the same workload get the same id exactly when
    their random suffixes are the same, and then also the same name. *)
Theorem instance_ids_differ_by_suffix :
  forall (rng rng' : nat -> nat) (w : WorkloadModel.Workload),
    id (instance_from_workload rng w) = id (instance_from_workload rng' w) <->
    random_id rng = random_id rng'.
Proof.
  intros rng rng' w.
  change (format_dash (WorkloadModel.id w) (random_id rng) =
          format_dash (WorkloadModel.id w) (random_id rng') <->
          random_id rng = random_id rng').
  unfold format_dash. split.
  - intro H. apply string_app_cancel_l in H.
    apply (string_app_cancel_l "-") in H. exact H.
  - intro H. rewrite H. reflexivity.
Qed.


(** ** The InstanceStop handler with a live reply channel *)



(** ** The HTTP instance controller *)

Ltac backend_cases :=
  repeat match goal with
  | |- context [match ?x with Ok _ => _ | Err _ => _ end] =>
      let E := fresh "E" in
      lazymatch type of x with
      | Result unit unit => destruct x as [[]|[]] eqn:E
      | _ => destruct x as [?|[]] eqn:E
      end
  | |- context [if ?x then _ else _] =>
      let E := fresh "E" in destruct x eqn:E
  end.

(** PUT: the answer is 404 exactly when the workload lookup fails, 201
    exactly when the workload is found, parses and its instance starts, and
    500 otherwise; an instance is started (by workload id) only for a
    workload that was found and parses. *)
Theorem put_instance_outcomes : forall (b : Backend) (namespace workload_id : string),
  let res := put_instance b namespace workload_id in
  (http_status (snd res) = NOT_FOUND <-> get_workload b workload_id namespace = Err tt) /\
  (http_status (snd res) = CREATED <->
     exists s, get_workload b workload_id namespace = Ok s /\
               parses_as_workload b s = true /\
               retrieve_and_start_instance b workload_id = Ok tt) /\
  (http_status (snd res) = NOT_FOUND \/ http_status (snd res) = CREATED \/
   http_status (snd res) = INTERNAL_SERVER_ERROR) /\
  (In (CallRetrieveAndStart workload_id) (fst res) <->
     exists s, get_workload b workload_id namespace = Ok s /\ parses_as_workload b s = true).
Proof.
  intros b ns wid res. subst res. unfold put_instance. backend_cases; simpl;
    repeat split; intros; unfold NOT_FOUND, CREATED, INTERNAL_SERVER_ERROR in *;
    repeat match goal with H : exists _, _ |- _ => destruct H end;
    intuition (try discriminate; try congruence; eauto).
Qed.

(** DELETE: the answer is 200 exactly when the workload and its instance
    are found and the instance is deleted; 404 exactly when one of the two
    lookups fails; and the only instance ever deleted is the one the
    instance lookup returned, after the workload was found. *)
Theorem delete_instance_outcomes : forall (b : Backend) (namespace workload_id : string),
  let res := delete_instance_handler b namespace workload_id in
  (http_status (snd res) = OK_ <->
     exists s i, get_workload b workload_id namespace = Ok s /\
                 get_instance b workload_id = Ok i /\ delete_instance b i = Ok tt) /\
  (http_status (snd res) = NOT_FOUND <->
     get_workload b workload_id namespace = Err tt \/
     exists s, get_workload b workload_id namespace = Ok s /\
               get_instance b workload_id = Err tt) /\
  (forall i, In (CallDeleteInstance i) (fst res) ->
     get_instance b workload_id = Ok i /\
     exists s, get_workload b workload_id namespace = Ok s).
Proof.
  intros b ns wid res. subst res. unfold delete_instance_handler. backend_cases; simpl;
    repeat split; intros; unfold NOT_FOUND, OK_, INTERNAL_SERVER_ERROR in *;
    repeat match goal with H : exists _, _ |- _ => destruct H end;
    intuition (try discriminate; try congruence; eauto).
  all: repeat match goal with H : exists _, _ |- _ => destruct H end;
       intuition discriminate.
Qed.

(** PATCH: a new instance is started only after the old one was found and
    deleted, and the answer is 201 exactly when all four steps succeed.
    The replacement is not atomic: when the restart fails, the old
    instance has already been deleted and the answer is 500. *)
Theorem patch_instance_outcomes : forall (b : Backend) (namespace workload_id : string),
  let res := patch_instance b namespace workload_id in
  (http_status (snd res) = CREATED <->
     exists s i, get_workload b workload_id namespace = Ok s /\
                 get_instance b workload_id = Ok i /\ delete_instance b i = Ok tt /\
                 retrieve_and_start_instance b workload_id = Ok tt) /\
  (In (CallRetrieveAndStart workload_id) (fst res) ->
     exists i, get_instance b workload_id = Ok i /\ delete_instance b i = Ok tt /\
               exists pre, fst res = (pre ++ [CallDeleteInstance i; CallRetrieveAndStart workload_id])%list) /\
  (forall s i, get_workload b workload_id namespace = Ok s ->
     get_instance b workload_id = Ok i -> delete_instance b i = Ok tt ->
     retrieve_and_start_instance b workload_id = Err tt ->
     In (CallDeleteInstance i) (fst res) /\ http_status (snd res) = INTERNAL_SERVER_ERROR).
Proof.
  intros b ns wid res. subst res. unfold patch_instance. backend_cases; simpl;
    repeat split; intros; unfold NOT_FOUND, CREATED, INTERNAL_SERVER_ERROR in *;
    repeat match goal with H : exists _, _ |- _ => destruct H end;
    try (intuition (try discriminate; try congruence; eauto); fail).
  all: try (exists a, a0; intuition congruence; fail).
  all: try (exists a0; split; [reflexivity|]; split; [assumption|];
            exists [CallGetWorkload wid ns; CallGetInstance wid]; reflexivity; fail).
  all: intuition (try discriminate; try congruence).
Qed.

(** GET: when the workload lookup fails the answer is 404 with body
    "Instance not found"; when the workload is found but the instance
    lookup fails the answer is 500, not 404; a 200 answer carries the JSON
    text of the instance the lookup returned. *)
Theorem get_instance_outcomes : forall (b : Backend) (namespace workload_id : string),
  let res := get_instance_handler b namespace workload_id in
  (get_workload b workload_id namespace = Err tt ->
     snd res = respond NOT_FOUND "Instance not found") /\
  (forall s, get_workload b workload_id namespace = Ok s ->
     get_instance b workload_id = Err tt -> http_status (snd res) = INTERNAL_SERVER_ERROR) /\
  (http_status (snd res) = OK_ ->
     exists i, get_instance b workload_id = Ok i /\ instance_to_json b i = Ok (http_body (snd res))).
Proof.
  intros b ns wid res. subst res. unfold get_instance_handler. backend_cases; simpl;
    repeat split; intros; unfold NOT_FOUND, OK_, INTERNAL_SERVER_ERROR in *;
    repeat match goal with H : exists _, _ |- _ => destruct H end;
    intuition (try discriminate; try congruence; eauto).
Qed.

